(** * wrpzap: a zap-logging observer for WRP messages

    A shallow embedding of [observer.go] and [fields.go] of
    xmidt-org/wrpzap, together with the small parts of the Go runtime, of
    [wrp-go/v3] and of [go.uber.org/zap] that the two files touch.

    Conventions of the embedding:
    - every Go function is a computation in the monad [zap.M]: it may return,
      or abort (panic, exit), and it may change the world, which here is the
      sequence of records handed to loggers;
    - a Go slice is [nil] or a sequence of elements, a Go map is [nil] or a
      finite map, a pointer is [nil] or the value it points to;
    - [int] and [int64] are integers in [Z]; conversions write their
      wrap-around out ([int] is 64 bits wide, as on amd64 and arm64). *)

From Stdlib Require Import ZArith Lia.
From stdpp Require Import base gmap strings list.

Local Open Scope string_scope.
Local Open Scope list_scope.
Local Open Scope Z_scope.

(** ** The Go runtime *)

Module Go.

(** [[]T]: the nil slice, or a slice over some elements. *)
Definition slice (A : Type) : Type := option (list A).

(** What [for _, x := range s] visits. *)
Definition elems {A} (s : slice A) : list A :=
  match s with
  | None => []
  | Some l => l
  end.

(** [len(s)]; it is 0 for the nil slice. *)
Definition len {A} (s : slice A) : Z := Z.of_nat (length (elems s)).

(** [make([]T, 0, n)]: empty and not nil, whatever the capacity. *)
Definition make {A} (capacity : Z) : slice A := Some [].

(** [append(s, x)]: never nil. *)
Definition append {A} (s : slice A) (x : A) : slice A := Some (elems s ++ [x]).

(** [map[K]V]: the nil map, or a finite map. *)
Definition map_ (K : Type) `{Countable K} (V : Type) : Type := option (gmap K V).

(** The entries a reader of the map sees; a nil map reads as empty. *)
Definition entries `{Countable K} {V} (m : map_ K V) : gmap K V :=
  match m with
  | None => ∅
  | Some g => g
  end.

(** Two's complement wrap-around to [w] bits. *)
Definition wrap (w : Z) (z : Z) : Z := (z + 2 ^ (w - 1)) mod 2 ^ w - 2 ^ (w - 1).

Definition intSize : Z := 64.

(** The conversions [int(x)] and [int64(x)]. *)
Definition int (z : Z) : Z := wrap intSize z.
Definition int64 (z : Z) : Z := wrap 64 z.

Definition is_int64 (z : Z) : bool := (- 2 ^ 63 <=? z) && (z <? 2 ^ 63).
Definition is_int (z : Z) : bool := (- 2 ^ (intSize - 1) <=? z) && (z <? 2 ^ (intSize - 1)).

(** The length of a slice is an [int]. *)
Definition is_slice {A} (s : slice A) : bool := is_int (len s).

(** How a call can end other than by returning. *)
Inductive abort : Type :=
| panic (v : string)
| exit (code : Z).

Inductive outcome (A : Type) : Type :=
| Done (a : A)
| Abort (why : abort).
Arguments Done {A} a.
Arguments Abort {A} why.

(** The value of the run-time panic raised by calling a nil function. *)
Definition nil_dereference : string :=
  "runtime error: invalid memory address or nil pointer dereference".

End Go.

(** ** wrp-go/v3: the message *)

Module wrp.

(** [type MessageType int64] *)
Definition MessageType : Type := Z.

Definition SimpleRequestResponseMessageType : MessageType := 3.

(** [type QOSValue int] *)
Definition QOSValue : Type := Z.

Record Message : Type := mkMessage {
  Type_ : MessageType;
  Source : string;
  Destination : string;
  TransactionUUID : string;
  ContentType : string;
  Accept : string;
  Status : option Z;
  RequestDeliveryResponse : option Z;
  Headers : Go.slice string;
  Metadata : Go.map_ string string;
  Spans : Go.slice (Go.slice string);
  IncludeSpans : option bool;
  Path : string;
  Payload : Go.slice Byte.byte;
  ServiceName : string;
  URL : string;
  PartnerIDs : Go.slice string;
  SessionID : string;
  QualityOfService : QOSValue
}.

(** [wrp.Message{}] *)
Definition zero : Message :=
  mkMessage 0 "" "" "" "" "" None None None None None None "" None "" "" None "" 0.

Definition is_ptr_int64 (p : option Z) : bool :=
  match p with
  | None => true
  | Some v => Go.is_int64 v
  end.

(** The numbers of [m] fit their Go types, and so do the lengths of the
    slices [observer.go] measures. *)
Definition representable (m : Message) : bool :=
  Go.is_int64 (Type_ m)
  && is_ptr_int64 (Status m)
  && is_ptr_int64 (RequestDeliveryResponse m)
  && Go.is_int (QualityOfService m)
  && Go.is_slice (Payload m).

End wrp.

(** ** fmt *)

Module fmt.

(** [interface { String() string }] *)
Class Stringer (A : Type) : Type := String : A -> string.

End fmt.

(** ** go.uber.org/zap/zapcore: fields and levels *)

Module zapcore.

Inductive FieldType : Type :=
| UnknownType
| ArrayMarshalerType
| ObjectMarshalerType
| BinaryType
| BoolType
| ByteStringType
| Complex128Type
| Complex64Type
| DurationType
| Float64Type
| Float32Type
| Int64Type
| Int32Type
| Int16Type
| Int8Type
| StringType
| TimeType
| TimeFullType
| Uint64Type
| Uint32Type
| Uint16Type
| Uint8Type
| UintptrType
| ReflectType
| NamespaceType
| StringerType
| ErrorType
| SkipType
| InlineMarshalerType.

(** [interface{}], closed over the dynamic types [observer.go] stores in
    a field: the nil interface, [[]byte], zap's [stringArray],
    [map[string]string] and [wrp.MessageType]. *)
Inductive any : Type :=
| nil
| bytes (b : Go.slice Byte.byte)
| stringArray (ss : Go.slice string)
| mapStringString (m : Go.map_ string string)
| messageType (t : wrp.MessageType).

Record Field : Type := mkField {
  Key : string;
  Type_ : FieldType;
  Integer : Z;
  String : string;
  Interface : any
}.

(** [type Level int8] *)
Definition Level : Type := Z.

Definition DebugLevel : Level := -1.
Definition InfoLevel : Level := 0.
Definition WarnLevel : Level := 1.
Definition ErrorLevel : Level := 2.
Definition DPanicLevel : Level := 3.
Definition PanicLevel : Level := 4.
Definition FatalLevel : Level := 5.

(** [stringArray.MarshalLogArray] appends the strings of the slice, in
    order, to the array being encoded. *)
Definition MarshalLogArray (v : any) : option (list string) :=
  match v with
  | stringArray ss => Some (Go.elems ss)
  | _ => None
  end.

(** The bytes an encoder's [AddBinary] receives for a [BinaryType] field. *)
Definition binary (v : any) : option (list Byte.byte) :=
  match v with
  | bytes b => Some (Go.elems b)
  | _ => None
  end.


End zapcore.

(** ** go.uber.org/zap: loggers and field constructors *)

Module zap.

(** What [*Logger] points to.  The logger is the emission target, and its
    inside is not this package's business: a logger is known by the sink
    it writes to, and by how a call of [Log] at a level ends once the
    record is handed over (zap panics or exits after records of some
    levels). *)
Record Logger : Type := mkLogger {
  sink : positive;
  terminal : zapcore.Level -> Go.outcome unit
}.

(** One call of [Logger.Log], as the target receives it. *)
Record Record_ : Type := mkRecord {
  target : Logger;
  level : zapcore.Level;
  label : string;
  context : list zapcore.Field
}.

(** The world: every record handed to a logger so far, oldest first. *)
Definition World : Type := list Record_.

(** A Go call: from a world, an outcome and the world it leaves. *)
Definition M (A : Type) : Type := World -> Go.outcome A * World.

#[global] Instance M_ret : MRet M := fun A a w => (Go.Done a, w).

#[global] Instance M_bind : MBind M := fun A B k c w =>
  match c w with
  | (Go.Done a, w') => k a w'
  | (Go.Abort why, w') => (Go.Abort why, w')
  end.

(** [panic(v)] *)
Definition panic {A} (v : string) : M A := fun w => (Go.Abort (Go.panic v), w).

(** [func (log *Logger) Log(lvl zapcore.Level, msg string, fields ...Field)]
    on a logger that is not nil.  The variadic [fields] arrive as a slice. *)
Definition Log (log : Logger) (lvl : zapcore.Level) (msg : string)
    (fields : Go.slice zapcore.Field) : M unit :=
  fun w => (terminal log lvl, w ++ [mkRecord log lvl msg (Go.elems fields)]).

(** [Field{Key: key, Type: zapcore.ReflectType, Interface: val}] *)
Definition Reflect (key : string) (val : zapcore.any) : M zapcore.Field :=
  mret (zapcore.mkField key zapcore.ReflectType 0 "" val).

Definition nilField (key : string) : M zapcore.Field := Reflect key zapcore.nil.

Definition Int64 (key : string) (val : Z) : M zapcore.Field :=
  mret (zapcore.mkField key zapcore.Int64Type val "" zapcore.nil).

(** [Int64(key, int64(val))] *)
Definition Int (key : string) (val : Z) : M zapcore.Field :=
  Int64 key (Go.int64 val).

(** [if val == nil { return nilField(key) }; return Int64(key, *val)] *)
Definition Int64p (key : string) (val : option Z) : M zapcore.Field :=
  match val with
  | None => nilField key
  | Some v => Int64 key v
  end.

Definition String (key : string) (val : string) : M zapcore.Field :=
  mret (zapcore.mkField key zapcore.StringType 0 val zapcore.nil).

Definition Binary (key : string) (val : Go.slice Byte.byte) : M zapcore.Field :=
  mret (zapcore.mkField key zapcore.BinaryType 0 "" (zapcore.bytes val)).

Definition Array (key : string) (val : zapcore.any) : M zapcore.Field :=
  mret (zapcore.mkField key zapcore.ArrayMarshalerType 0 "" val).

(** [Array(key, stringArray(ss))] *)
Definition Strings (key : string) (ss : Go.slice string) : M zapcore.Field :=
  Array key (zapcore.stringArray ss).

(** The value's [String] method is not called here, but when the field is
    encoded. *)
Definition Stringer (key : string) (val : wrp.MessageType) : M zapcore.Field :=
  mret (zapcore.mkField key zapcore.StringerType 0 "" (zapcore.messageType val)).

(** [Any] picks the constructor by the dynamic type of the value; a
    [map[string]string] is none of its special cases and goes to
    [Reflect]. *)
Definition Any (key : string) (value : zapcore.any) : M zapcore.Field :=
  match value with
  | zapcore.stringArray _ => Array key value
  | zapcore.bytes b => Binary key b
  | zapcore.messageType t => Stringer key t
  | zapcore.mapStringString _ | zapcore.nil => Reflect key value
  end.

End zap.

(** ** wrpzap *)

Module wrpzap.

(** *** fields.go *)

Definition fMsgType : string := "msg_type".
Definition fSource : string := "source".
Definition fDestination : string := "dest".
Definition fTransactionUUID : string := "transaction_uuid".
Definition fContentType : string := "content_type".
Definition fAccept : string := "accept".
Definition fStatus : string := "status".
Definition fRequestDeliveryResponse : string := "rdr".
Definition fHeaders : string := "headers".
Definition fMetadata : string := "metadata".
Definition fPath : string := "path".
Definition fPayload : string := "payload".
Definition fPayloadSize : string := "payload_size".
Definition fServiceName : string := "service_name".
Definition fURL : string := "url".
Definition fPartnerIDs : string := "partner_ids".
Definition fSessionID : string := "session_id".
Definition fQualityOfService : string := "qos".

(** *** observer.go *)

(** [type FieldOpt func(wrp.Message) zap.Field]; a function value can be
    nil. *)
Definition FieldOpt : Type := option (wrp.Message -> zap.M zapcore.Field).

Record Observer : Type := mkObserver {
  Logger : option zap.Logger;
  Level : zapcore.Level;
  Message : string;
  Fields : Go.slice FieldOpt
}.

(** [field(msg)]: calling a nil function panics. *)
Definition call (field : FieldOpt) (msg : wrp.Message) : zap.M zapcore.Field :=
  match field with
  | None => zap.panic Go.nil_dereference
  | Some f => f msg
  end.

(** The loop of [ObserveWRP], from the entries still to visit and the
    slice built so far:
    [for _, field := range ob.Fields { fields = append(fields, field(msg)) }] *)
Fixpoint collect (rest : list FieldOpt) (msg : wrp.Message)
    (fields : Go.slice zapcore.Field) : zap.M (Go.slice zapcore.Field) :=
  match rest with
  | [] => mret fields
  | field :: rest' =>
      f ← call field msg;
      collect rest' msg (Go.append fields f)
  end.

Definition ObserveWRP (ob : Observer) (msg : wrp.Message) : zap.M unit :=
  match Logger ob with
  | None => mret tt
  | Some logger =>
      fields ← collect (Go.elems (Fields ob)) msg (Go.make (Go.len (Fields ob)));
      zap.Log logger (Level ob) (Message ob) fields
  end.

Definition LogMessageTypeAsString : FieldOpt :=
  Some (fun msg => zap.Stringer fMsgType (wrp.Type_ msg)).

Definition LogMessageTypeAsNum : FieldOpt :=
  Some (fun msg => zap.Int fMsgType (Go.int (wrp.Type_ msg))).

Definition LogMessageType : FieldOpt := LogMessageTypeAsNum.

Definition LogSource : FieldOpt :=
  Some (fun msg => zap.String fSource (wrp.Source msg)).

Definition LogDestination : FieldOpt :=
  Some (fun msg => zap.String fDestination (wrp.Destination msg)).

Definition LogTransactionUUID : FieldOpt :=
  Some (fun msg => zap.String fTransactionUUID (wrp.TransactionUUID msg)).

Definition LogContentType : FieldOpt :=
  Some (fun msg => zap.String fContentType (wrp.ContentType msg)).

Definition LogAccept : FieldOpt :=
  Some (fun msg => zap.String fAccept (wrp.Accept msg)).

Definition LogStatus : FieldOpt :=
  Some (fun msg => zap.Int64p fStatus (wrp.Status msg)).

Definition LogRequestDeliveryResponse : FieldOpt :=
  Some (fun msg => zap.Int64p fRequestDeliveryResponse (wrp.RequestDeliveryResponse msg)).

Definition LogHeaders : FieldOpt :=
  Some (fun msg => zap.Strings fHeaders (wrp.Headers msg)).

Definition LogMetadata : FieldOpt :=
  Some (fun msg => zap.Any fMetadata (zapcore.mapStringString (wrp.Metadata msg))).

Definition LogPath : FieldOpt :=
  Some (fun msg => zap.String fPath (wrp.Path msg)).

Definition LogPayload : FieldOpt :=
  Some (fun msg => zap.Binary fPayload (wrp.Payload msg)).

Definition LogPayloadSize : FieldOpt :=
  Some (fun msg => zap.Int fPayloadSize (Go.len (wrp.Payload msg))).

Definition LogServiceName : FieldOpt :=
  Some (fun msg => zap.String fServiceName (wrp.ServiceName msg)).

Definition LogURL : FieldOpt :=
  Some (fun msg => zap.String fURL (wrp.URL msg)).

Definition LogPartnerIDs : FieldOpt :=
  Some (fun msg => zap.Strings fPartnerIDs (wrp.PartnerIDs msg)).

Definition LogSessionID : FieldOpt :=
  Some (fun msg => zap.String fSessionID (wrp.SessionID msg)).

Definition LogQualityOfService : FieldOpt :=
  Some (fun msg => zap.Int fQualityOfService (Go.int (wrp.QualityOfService msg))).

End wrpzap.

(** ** The vocabulary of the properties *)

(** [yields opt msg f]: in every world, calling [opt] on [msg] returns [f]
    and leaves the world as it was.  A nil [opt] yields nothing. *)
Definition yields (opt : wrpzap.FieldOpt) (msg : wrp.Message) (f : zapcore.Field) : Prop :=
  forall w : zap.World, wrpzap.call opt msg w = (Go.Done f, w).

(** An extractor on [msg]: total, and its result depends on nothing but
    [msg]. *)
Definition extractor_on (msg : wrp.Message) (opt : wrpzap.FieldOpt) : Prop :=
  exists f, yields opt msg f.

(** [names opt name]: on every message [opt] yields a field with key [name]. *)
Definition names (opt : wrpzap.FieldOpt) (name : string) : Prop :=
  forall msg, exists f, yields opt msg f /\ zapcore.Key f = name.

(** The factories of [observer.go], in the order of the file. *)
Definition catalog : list wrpzap.FieldOpt :=
  [ wrpzap.LogMessageType;
    wrpzap.LogMessageTypeAsString;
    wrpzap.LogMessageTypeAsNum;
    wrpzap.LogSource;
    wrpzap.LogDestination;
    wrpzap.LogTransactionUUID;
    wrpzap.LogContentType;
    wrpzap.LogAccept;
    wrpzap.LogStatus;
    wrpzap.LogRequestDeliveryResponse;
    wrpzap.LogHeaders;
    wrpzap.LogMetadata;
    wrpzap.LogPath;
    wrpzap.LogPayload;
    wrpzap.LogPayloadSize;
    wrpzap.LogServiceName;
    wrpzap.LogURL;
    wrpzap.LogPartnerIDs;
    wrpzap.LogSessionID;
    wrpzap.LogQualityOfService ].

(** zap's [nilField]: the field by which zap logs a nil pointer, a
    [Reflect] field holding the nil interface, which encoders write as
    null. *)
Definition is_null (f : zapcore.Field) : Prop :=
  zapcore.Type_ f = zapcore.ReflectType /\ zapcore.Interface f = zapcore.nil.

(** [reads_exactly opt attr]: the field [opt] yields is determined by the
    attribute [attr] of the message and determines it: two messages get the
    same field exactly when they agree on [attr]. *)
Definition reads_exactly {A : Type} (opt : wrpzap.FieldOpt) (attr : wrp.Message -> A) : Prop :=
  forall m1 m2 : wrp.Message,
  exists f g, yields opt m1 f /\ yields opt m2 g /\ (f = g <-> attr m1 = attr m2).




(** The record an observer hands its logger for the fields [fields]. *)
Definition record_of (ob : wrpzap.Observer) (logger : zap.Logger)
    (fields : list zapcore.Field) : zap.Record_ :=
  zap.mkRecord logger (wrpzap.Level ob) (wrpzap.Message ob) fields.

(** ** Test data, after [observer_test.go] *)

Definition quiet : zap.Logger := zap.mkLogger 1%positive (fun _ => Go.Done tt).

(** A development logger: it panics after a record at [DPanicLevel] or
    above. *)
Definition strict : zap.Logger :=
  zap.mkLogger 2%positive
    (fun lvl => if lvl <? zapcore.DPanicLevel then Go.Done tt else Go.Abort (Go.panic "test message")).

Definition num : Z := 123.
Definition headers : Go.slice string := Some ["header1"; "header2"].
Definition payload : Go.slice Byte.byte := Some (String.list_byte_of_string "test payload").

Definition sample : wrp.Message :=
  wrp.mkMessage wrp.SimpleRequestResponseMessageType "test source" "test destination"
    "test uuid" "test content type" "test accept" (Some num) None headers
    (Some {[ "key" := "value" ]}) None None "test path" payload "test service name"
    "test url" (Some ["partner1"; "partner2"]) "session123" 2.



Definition testObserver (logger : option zap.Logger) (fields : Go.slice wrpzap.FieldOpt) :
    wrpzap.Observer :=
  wrpzap.mkObserver logger zapcore.InfoLevel "test message" fields.

(** A field function of a caller's own, which panics. *)
Definition failing : wrpzap.FieldOpt := Some (fun _ => zap.panic "no field").

(** ** The loop of [ObserveWRP] *)

Ltac run_call :=
  unfold mbind, mret, zap.M_bind, zap.M_ret, zap.panic; cbn.

Section Loop.

Variable msg : wrp.Message.


(** The loop stops at the first nil entry, by the panic of the call. *)
Lemma collect_nil_entry (pre post : list wrpzap.FieldOpt) :
  Forall (extractor_on msg) pre ->
  forall (acc : list zapcore.Field) (w : zap.World),
  wrpzap.collect (pre ++ None :: post) msg (Some acc) w
  = (Go.Abort (Go.panic Go.nil_dereference), w).
Proof.
  induction 1 as [| opt pre [f Hf] _ IH]; intros acc w.
  - reflexivity.
  - cbn [app wrpzap.collect]. run_call. rewrite (Hf w).
    unfold Go.append. cbn [Go.elems]. apply IH.
Qed.

(** Whatever the other entries do, a loop over a nil entry does not
    return. *)
Lemma collect_never_returns (rest : list wrpzap.FieldOpt) :
  None ∈ rest ->
  forall (fields : Go.slice zapcore.Field) (w : zap.World),
  exists (why : Go.abort) (w' : zap.World),
    wrpzap.collect rest msg fields w = (Go.Abort why, w').
Proof.
  induction rest as [| opt rest IH]; intros Hin fields w.
  - by apply elem_of_nil in Hin.
  - cbn [wrpzap.collect]. run_call.
    destruct opt as [g |].
    + apply elem_of_cons in Hin as [Hin | Hin]; [discriminate |].
      cbn. destruct (g msg w) as [[f | why] w'].
      * apply IH, Hin.
      * by exists why, w'.
    + cbn. by eexists _, _.
Qed.

End Loop.

(** ** The observer *)



(** C2.  An observer without a logger does nothing: no record, a normal
    return, whatever its fields are. *)
Theorem ObserveWRP_nil_logger (ob : wrpzap.Observer) (msg : wrp.Message) (w : zap.World) :
  wrpzap.Logger ob = None ->
  wrpzap.ObserveWRP ob msg w = (Go.Done tt, w).
Proof.
  intros Hlog. unfold wrpzap.ObserveWRP. by rewrite Hlog.
Qed.

Lemma ObserveWRP_nil_logger_witness :
  wrpzap.ObserveWRP (testObserver None (Some [wrpzap.LogSource; None])) sample []
  = (Go.Done tt, []).
Proof.
  apply (ObserveWRP_nil_logger (testObserver None (Some [wrpzap.LogSource; None])) sample []).
  reflexivity.
Defined.

(** C9.  With a logger, a nil entry among the fields makes [ObserveWRP]
    fail: it never returns, and when the entries before the nil one are
    extractors it ends in the nil-call panic with no record emitted. *)
Theorem ObserveWRP_nil_field_panics (ob : wrpzap.Observer) (logger : zap.Logger)
    (msg : wrp.Message) (w : zap.World) :
  wrpzap.Logger ob = Some logger ->
  None ∈ Go.elems (wrpzap.Fields ob) ->
  (exists (why : Go.abort) (w' : zap.World),
     wrpzap.ObserveWRP ob msg w = (Go.Abort why, w')) /\
  (forall pre post : list wrpzap.FieldOpt,
     Go.elems (wrpzap.Fields ob) = pre ++ None :: post ->
     Forall (extractor_on msg) pre ->
     wrpzap.ObserveWRP ob msg w = (Go.Abort (Go.panic Go.nil_dereference), w)).
Proof.
  intros Hlog Hin. unfold wrpzap.ObserveWRP. rewrite Hlog. split.
  - destruct (collect_never_returns msg _ Hin (Go.make (Go.len (wrpzap.Fields ob))) w)
      as (why & w' & Hrun).
    exists why, w'. run_call. by rewrite Hrun.
  - intros pre post Hsplit Hpre. run_call. unfold Go.make.
    rewrite Hsplit, (collect_nil_entry msg pre post Hpre [] w). reflexivity.
Qed.

Lemma ObserveWRP_nil_field_panics_witness :
  wrpzap.ObserveWRP (testObserver (Some quiet) (Some [wrpzap.LogSource; None; wrpzap.LogStatus]))
    sample []
  = (Go.Abort (Go.panic Go.nil_dereference), []).
Proof.
  refine (proj2 (ObserveWRP_nil_field_panics
                   (testObserver (Some quiet) (Some [wrpzap.LogSource; None; wrpzap.LogStatus]))
                   quiet sample [] _ _) [wrpzap.LogSource] [wrpzap.LogStatus] _ _).
  - reflexivity.
  - cbn. apply list_elem_of_further, list_elem_of_here.
  - reflexivity.
  - repeat constructor. eexists. intros w. reflexivity.
Defined.

(** ** The catalog of extractors *)

Lemma int64_in_range (z : Z) : Go.is_int64 z = true -> Go.int64 z = z.
Proof.
  unfold Go.is_int64, Go.int64, Go.wrap. intros [Hlo Hhi]%andb_true_iff.
  apply Z.leb_le in Hlo. apply Z.ltb_lt in Hhi.
  change (64 - 1) with 63.
  rewrite Z.mod_small; lia.
Qed.


Lemma int_is_int64 (z : Z) : Go.is_int z = true -> Go.is_int64 z = true.
Proof. exact (fun H => H). Qed.

(** What [representable] says, field by field. *)
Lemma representable_fields (msg : wrp.Message) :
  wrp.representable msg = true ->
  Go.is_int64 (wrp.Type_ msg) = true /\
  Go.is_int (wrp.QualityOfService msg) = true /\
  Go.is_int (Go.len (wrp.Payload msg)) = true.
Proof.
  unfold wrp.representable, Go.is_slice.
  rewrite !andb_true_iff. tauto.
Qed.

(** C3.  Every factory names its field by the string of the public
    contract, on every message. *)
Theorem field_names_exact :
  names wrpzap.LogMessageType "msg_type" /\
  names wrpzap.LogMessageTypeAsNum "msg_type" /\
  names wrpzap.LogMessageTypeAsString "msg_type" /\
  names wrpzap.LogSource "source" /\
  names wrpzap.LogDestination "dest" /\
  names wrpzap.LogTransactionUUID "transaction_uuid" /\
  names wrpzap.LogContentType "content_type" /\
  names wrpzap.LogAccept "accept" /\
  names wrpzap.LogStatus "status" /\
  names wrpzap.LogRequestDeliveryResponse "rdr" /\
  names wrpzap.LogHeaders "headers" /\
  names wrpzap.LogMetadata "metadata" /\
  names wrpzap.LogPath "path" /\
  names wrpzap.LogPayload "payload" /\
  names wrpzap.LogPayloadSize "payload_size" /\
  names wrpzap.LogServiceName "service_name" /\
  names wrpzap.LogURL "url" /\
  names wrpzap.LogPartnerIDs "partner_ids" /\
  names wrpzap.LogSessionID "session_id" /\
  names wrpzap.LogQualityOfService "qos".
Proof.
  repeat split; intros msg; unfold yields; cbn.
  9: destruct (wrp.Status msg).
  11: destruct (wrp.RequestDeliveryResponse msg).
  all: eexists; split; [intros w; reflexivity | reflexivity].
Qed.

(** C4.  The status and delivery-response extractors keep nil apart from a
    number: a nil attribute yields the null field under the same key, a
    number yields the [Int64] field holding exactly that number, and the
    null field is not a number field. *)
Theorem optional_int64_preserved (msg : wrp.Message) :
  (exists f, yields wrpzap.LogStatus msg f /\ zapcore.Key f = "status" /\
     match wrp.Status msg with
     | None => is_null f /\ zapcore.Type_ f <> zapcore.Int64Type
     | Some v => zapcore.Type_ f = zapcore.Int64Type /\ zapcore.Integer f = v /\ ~ is_null f
     end) /\
  (exists f, yields wrpzap.LogRequestDeliveryResponse msg f /\ zapcore.Key f = "rdr" /\
     match wrp.RequestDeliveryResponse msg with
     | None => is_null f /\ zapcore.Type_ f <> zapcore.Int64Type
     | Some v => zapcore.Type_ f = zapcore.Int64Type /\ zapcore.Integer f = v /\ ~ is_null f
     end).
Proof.
  unfold yields, is_null. split; cbn.
  - destruct (wrp.Status msg) as [v |]; eexists;
      (split; [intros w; reflexivity |]); cbn; intuition congruence.
  - destruct (wrp.RequestDeliveryResponse msg) as [v |]; eexists;
      (split; [intros w; reflexivity |]); cbn; intuition congruence.
Qed.

(** C5.  The payload-size extractor yields the number of bytes of the
    payload, which is 0 when the payload has no bytes. *)
Theorem LogPayloadSize_byte_length (msg : wrp.Message) :
  wrp.representable msg = true ->
  exists f, yields wrpzap.LogPayloadSize msg f /\
    zapcore.Key f = "payload_size" /\
    zapcore.Type_ f = zapcore.Int64Type /\
    zapcore.Integer f = Z.of_nat (length (Go.elems (wrp.Payload msg))) /\
    (Go.elems (wrp.Payload msg) = [] -> zapcore.Integer f = 0).
Proof.
  intros (_ & _ & Hlen)%representable_fields.
  eexists. split; [intros w; reflexivity |]. cbn.
  rewrite (int64_in_range _ (int_is_int64 _ Hlen)). unfold Go.len.
  repeat split. by intros ->.
Qed.

Lemma LogPayloadSize_byte_length_witness :
  exists f, yields wrpzap.LogPayloadSize sample f /\
    zapcore.Key f = "payload_size" /\
    zapcore.Type_ f = zapcore.Int64Type /\
    zapcore.Integer f = 12 /\
    (Go.elems (wrp.Payload sample) = [] -> zapcore.Integer f = 0).
Proof.
  apply (LogPayloadSize_byte_length sample). reflexivity.
Defined.



(** C7.  Every factory of the catalog is an extractor: it is a function,
    on every message it returns a field, the field is the same in every
    world, and the world is left as it was. *)
Theorem catalog_total_and_pure :
  Forall
    (fun opt => opt <> None /\
       forall msg, exists f, forall w w' : zap.World,
         wrpzap.call opt msg w = (Go.Done f, w) /\
         fst (wrpzap.call opt msg w') = Go.Done f)
    catalog.
Proof.
  unfold catalog.
  repeat apply Forall_cons_2; try apply Forall_nil_2.
  all: split; [discriminate |]; intros msg; cbn.
  9: destruct (wrp.Status msg).
  11: destruct (wrp.RequestDeliveryResponse msg).
  all: eexists; intros w w'; split; reflexivity.
Qed.





(** ** More on the observer *)


Lemma extractors_yield (msg : wrp.Message) (rest : list wrpzap.FieldOpt) :
  Forall (extractor_on msg) rest ->
  exists produced, Forall2 (fun opt f => yields opt msg f) rest produced.
Proof.
  induction 1 as [| opt rest [f Hf] _ [produced IH]].
  - by exists [].
  - exists (f :: produced). by constructor.
Qed.

Lemma collect_yields (msg : wrp.Message) (rest : list wrpzap.FieldOpt)
    (produced : list zapcore.Field) :
  Forall2 (fun opt f => yields opt msg f) rest produced ->
  forall (acc : list zapcore.Field) (w : zap.World),
  wrpzap.collect rest msg (Some acc) w = (Go.Done (Some (acc ++ produced)), w).
Proof.
  induction 1 as [| opt f rest produced Hf _ IH]; intros acc w.
  - cbn. run_call. by rewrite app_nil_r.
  - cbn [wrpzap.collect]. run_call. rewrite (Hf w).
    unfold Go.append. cbn [Go.elems]. rewrite IH. by rewrite <- app_assoc.
Qed.

Lemma ObserveWRP_yields (ob : wrpzap.Observer) (logger : zap.Logger) (msg : wrp.Message)
    (fields : list zapcore.Field) (w : zap.World) :
  wrpzap.Logger ob = Some logger ->
  Forall2 (fun opt f => yields opt msg f) (Go.elems (wrpzap.Fields ob)) fields ->
  wrpzap.ObserveWRP ob msg w
  = (zap.terminal logger (wrpzap.Level ob), w ++ [record_of ob logger fields]).
Proof.
  intros Hlog Hall. unfold wrpzap.ObserveWRP. rewrite Hlog. run_call.
  unfold Go.make. by rewrite (collect_yields msg _ _ Hall [] w).
Qed.

Lemma collect_abort (msg : wrp.Message) (pre post : list wrpzap.FieldOpt)
    (g : wrp.Message -> zap.M zapcore.Field) (why : Go.abort) (w w' : zap.World) :
  Forall (extractor_on msg) pre ->
  g msg w = (Go.Abort why, w') ->
  forall acc : list zapcore.Field,
  wrpzap.collect (pre ++ Some g :: post) msg (Some acc) w = (Go.Abort why, w').
Proof.
  intros Hpre Hg. induction Hpre as [| opt pre [f Hf] _ IH]; intros acc.
  - cbn. run_call. by rewrite Hg.
  - cbn [app wrpzap.collect]. run_call. rewrite (Hf w).
    unfold Go.append. cbn [Go.elems]. apply IH.
Qed.

Lemma yields_Permutation (msg : wrp.Message) (xs ys : list wrpzap.FieldOpt) :
  xs ≡ₚ ys ->
  forall cx, Forall2 (fun opt f => yields opt msg f) xs cx ->
  exists cy, Forall2 (fun opt f => yields opt msg f) ys cy /\ cx ≡ₚ cy.
Proof.
  induction 1 as [| x xs ys _ IH | x y xs | xs ys zs _ IHxy _ IHyz]; intros cx Hcx.
  - apply Forall2_nil_inv_l in Hcx as ->. by exists [].
  - apply Forall2_cons_inv_l in Hcx as (f & cx' & Hf & Hcx' & ->).
    destruct (IH cx' Hcx') as (cy & Hcy & Hperm).
    exists (f :: cy). split; [by constructor | by constructor].
  - apply Forall2_cons_inv_l in Hcx as (fy & cx' & Hfy & Hcx' & ->).
    apply Forall2_cons_inv_l in Hcx' as (fx & cx'' & Hfx & Hcx'' & ->).
    exists (fx :: fy :: cx''). split; [by repeat constructor | by constructor].
  - destruct (IHxy cx Hcx) as (cy & Hcy & Hp1).
    destruct (IHyz cy Hcy) as (cz & Hcz & Hp2).
    exists cz. split; [done | by etrans].
Qed.

(** X1.  The observer does not recover a failing field function: when the
    entries before it are extractors and it aborts, [ObserveWRP] aborts
    for the same reason, in the world the function left, and the logger is
    not called. *)
Theorem ObserveWRP_field_abort_propagates (ob : wrpzap.Observer) (logger : zap.Logger)
    (msg : wrp.Message) (pre post : list wrpzap.FieldOpt)
    (g : wrp.Message -> zap.M zapcore.Field) (why : Go.abort) (w w' : zap.World) :
  wrpzap.Logger ob = Some logger ->
  Go.elems (wrpzap.Fields ob) = pre ++ Some g :: post ->
  Forall (extractor_on msg) pre ->
  g msg w = (Go.Abort why, w') ->
  wrpzap.ObserveWRP ob msg w = (Go.Abort why, w').
Proof.
  intros Hlog Hsplit Hpre Hg. unfold wrpzap.ObserveWRP. rewrite Hlog, Hsplit.
  run_call. unfold Go.make. by rewrite (collect_abort msg pre post g why w w' Hpre Hg []).
Qed.

Lemma ObserveWRP_field_abort_propagates_witness :
  wrpzap.ObserveWRP (testObserver (Some quiet) (Some [wrpzap.LogSource; failing; None])) sample []
  = (Go.Abort (Go.panic "no field"), []).
Proof.
  apply (ObserveWRP_field_abort_propagates
           (testObserver (Some quiet) (Some [wrpzap.LogSource; failing; None]))
           quiet sample [wrpzap.LogSource] [None] (fun _ => zap.panic "no field")).
  - reflexivity.
  - reflexivity.
  - repeat constructor. eexists. intros w. reflexivity.
  - reflexivity.
Defined.

(** X2.  An observer with a logger and no field, its [Fields] nil or
    empty, still logs: one record with the level and the label and no
    field. *)
Theorem ObserveWRP_no_fields (ob : wrpzap.Observer) (logger : zap.Logger)
    (msg : wrp.Message) (w : zap.World) :
  wrpzap.Logger ob = Some logger ->
  Go.len (wrpzap.Fields ob) = 0 ->
  wrpzap.ObserveWRP ob msg w
  = (zap.terminal logger (wrpzap.Level ob),
     w ++ [zap.mkRecord logger (wrpzap.Level ob) (wrpzap.Message ob) []]).
Proof.
  intros Hlog Hlen. apply (ObserveWRP_yields ob logger msg [] w Hlog).
  unfold Go.len in Hlen. destruct (Go.elems (wrpzap.Fields ob)); [constructor | cbn in Hlen; lia].
Qed.

Lemma ObserveWRP_no_fields_witness :
  wrpzap.ObserveWRP (testObserver (Some quiet) None) sample []
  = (Go.Done tt, [] ++ [zap.mkRecord quiet zapcore.InfoLevel "test message" []]).
Proof.
  apply (ObserveWRP_no_fields (testObserver (Some quiet) None) quiet sample []); reflexivity.
Defined.

(** X3.  Fields compose by concatenation: the record of an observer over
    [xs ++ ys] carries the fields of the observer over [xs] followed by
    those of the observer over [ys]. *)
Theorem ObserveWRP_fields_append (logger : zap.Logger) (lvl : zapcore.Level) (label : string)
    (xs ys : list wrpzap.FieldOpt) (msg : wrp.Message) (w : zap.World) :
  Forall (extractor_on msg) xs ->
  Forall (extractor_on msg) ys ->
  exists cx cy : list zapcore.Field,
    wrpzap.ObserveWRP (wrpzap.mkObserver (Some logger) lvl label (Some xs)) msg w
    = (zap.terminal logger lvl, w ++ [zap.mkRecord logger lvl label cx]) /\
    wrpzap.ObserveWRP (wrpzap.mkObserver (Some logger) lvl label (Some ys)) msg w
    = (zap.terminal logger lvl, w ++ [zap.mkRecord logger lvl label cy]) /\
    wrpzap.ObserveWRP (wrpzap.mkObserver (Some logger) lvl label (Some (xs ++ ys))) msg w
    = (zap.terminal logger lvl, w ++ [zap.mkRecord logger lvl label (cx ++ cy)]).
Proof.
  intros [cx Hx]%extractors_yield [cy Hy]%extractors_yield.
  exists cx, cy. repeat split.
  - by apply (ObserveWRP_yields (wrpzap.mkObserver (Some logger) lvl label (Some xs))).
  - by apply (ObserveWRP_yields (wrpzap.mkObserver (Some logger) lvl label (Some ys))).
  - apply (ObserveWRP_yields (wrpzap.mkObserver (Some logger) lvl label (Some (xs ++ ys))));
      [done |]. cbn. by apply Forall2_app.
Qed.

Lemma ObserveWRP_fields_append_witness :
  exists cx cy : list zapcore.Field,
    wrpzap.ObserveWRP (testObserver (Some quiet) (Some [wrpzap.LogSource])) sample []
    = (Go.Done tt, [zap.mkRecord quiet zapcore.InfoLevel "test message" cx]) /\
    wrpzap.ObserveWRP (testObserver (Some quiet) (Some [wrpzap.LogPath; wrpzap.LogURL])) sample []
    = (Go.Done tt, [zap.mkRecord quiet zapcore.InfoLevel "test message" cy]) /\
    wrpzap.ObserveWRP
      (testObserver (Some quiet) (Some [wrpzap.LogSource; wrpzap.LogPath; wrpzap.LogURL])) sample []
    = (Go.Done tt, [zap.mkRecord quiet zapcore.InfoLevel "test message" (cx ++ cy)]).
Proof.
  apply (ObserveWRP_fields_append quiet zapcore.InfoLevel "test message"
           [wrpzap.LogSource] [wrpzap.LogPath; wrpzap.LogURL] sample []).
  - repeat constructor. eexists. intros w. reflexivity.
  - repeat constructor; eexists; intros w; reflexivity.
Defined.

(** X4.  Reordering the extractors reorders the fields and nothing else:
    observers whose extractors are permutations of each other log records
    whose fields are permutations of each other. *)
Theorem ObserveWRP_fields_permuted (logger : zap.Logger) (lvl : zapcore.Level) (label : string)
    (xs ys : list wrpzap.FieldOpt) (msg : wrp.Message) (w : zap.World) :
  xs ≡ₚ ys ->
  Forall (extractor_on msg) xs ->
  exists cx cy : list zapcore.Field,
    cx ≡ₚ cy /\
    wrpzap.ObserveWRP (wrpzap.mkObserver (Some logger) lvl label (Some xs)) msg w
    = (zap.terminal logger lvl, w ++ [zap.mkRecord logger lvl label cx]) /\
    wrpzap.ObserveWRP (wrpzap.mkObserver (Some logger) lvl label (Some ys)) msg w
    = (zap.terminal logger lvl, w ++ [zap.mkRecord logger lvl label cy]).
Proof.
  intros Hperm [cx Hx]%extractors_yield.
  destruct (yields_Permutation msg xs ys Hperm cx Hx) as (cy & Hy & Hc).
  exists cx, cy. repeat split; [done | |].
  - by apply (ObserveWRP_yields (wrpzap.mkObserver (Some logger) lvl label (Some xs))).
  - by apply (ObserveWRP_yields (wrpzap.mkObserver (Some logger) lvl label (Some ys))).
Qed.

Lemma ObserveWRP_fields_permuted_witness :
  exists cx cy : list zapcore.Field,
    cx ≡ₚ cy /\
    wrpzap.ObserveWRP (testObserver (Some quiet) (Some [wrpzap.LogSource; wrpzap.LogPath])) sample []
    = (Go.Done tt, [zap.mkRecord quiet zapcore.InfoLevel "test message" cx]) /\
    wrpzap.ObserveWRP (testObserver (Some quiet) (Some [wrpzap.LogPath; wrpzap.LogSource])) sample []
    = (Go.Done tt, [zap.mkRecord quiet zapcore.InfoLevel "test message" cy]).
Proof.
  apply (ObserveWRP_fields_permuted quiet zapcore.InfoLevel "test message"
           [wrpzap.LogSource; wrpzap.LogPath] [wrpzap.LogPath; wrpzap.LogSource] sample []).
  - apply perm_swap.
  - repeat constructor; eexists; intros w; reflexivity.
Defined.

(** X5.  An observer keeps no state between calls: observing [m1] and then
    [m2] logs the record of [m1] and then the record of [m2], each as if
    observed alone; when the logger ends the first call by aborting, the
    second message is not observed. *)
Theorem ObserveWRP_twice (ob : wrpzap.Observer) (logger : zap.Logger)
    (m1 m2 : wrp.Message) (w : zap.World) :
  wrpzap.Logger ob = Some logger ->
  Forall (extractor_on m1) (Go.elems (wrpzap.Fields ob)) ->
  Forall (extractor_on m2) (Go.elems (wrpzap.Fields ob)) ->
  exists c1 c2 : list zapcore.Field,
    wrpzap.ObserveWRP ob m1 w
    = (zap.terminal logger (wrpzap.Level ob), w ++ [record_of ob logger c1]) /\
    wrpzap.ObserveWRP ob m2 w
    = (zap.terminal logger (wrpzap.Level ob), w ++ [record_of ob logger c2]) /\
    (wrpzap.ObserveWRP ob m1 ≫= fun _ => wrpzap.ObserveWRP ob m2) w
    = match zap.terminal logger (wrpzap.Level ob) with
      | Go.Done _ =>
          (zap.terminal logger (wrpzap.Level ob),
           w ++ [record_of ob logger c1; record_of ob logger c2])
      | Go.Abort why => (Go.Abort why, w ++ [record_of ob logger c1])
      end.
Proof.
  intros Hlog [c1 H1]%extractors_yield [c2 H2]%extractors_yield.
  exists c1, c2. split; [by apply ObserveWRP_yields |]. split; [by apply ObserveWRP_yields |].
  run_call. rewrite (ObserveWRP_yields ob logger m1 c1 w Hlog H1).
  destruct (zap.terminal logger (wrpzap.Level ob)) as [[] | why] eqn:Hend; [| done].
  rewrite (ObserveWRP_yields ob logger m2 c2 _ Hlog H2), Hend.
  by rewrite <- app_assoc.
Qed.

Lemma ObserveWRP_twice_witness :
  exists c1 c2 : list zapcore.Field,
    wrpzap.ObserveWRP (testObserver (Some quiet) (Some [wrpzap.LogStatus])) sample []
    = (Go.Done tt, [zap.mkRecord quiet zapcore.InfoLevel "test message" c1]) /\
    wrpzap.ObserveWRP (testObserver (Some quiet) (Some [wrpzap.LogStatus])) wrp.zero []
    = (Go.Done tt, [zap.mkRecord quiet zapcore.InfoLevel "test message" c2]) /\
    (wrpzap.ObserveWRP (testObserver (Some quiet) (Some [wrpzap.LogStatus])) sample
     ≫= fun _ => wrpzap.ObserveWRP (testObserver (Some quiet) (Some [wrpzap.LogStatus])) wrp.zero) []
    = (Go.Done tt,
       [zap.mkRecord quiet zapcore.InfoLevel "test message" c1;
        zap.mkRecord quiet zapcore.InfoLevel "test message" c2]).
Proof.
  apply (ObserveWRP_twice (testObserver (Some quiet) (Some [wrpzap.LogStatus])) quiet
           sample wrp.zero []).
  - reflexivity.
  - repeat constructor. eexists. intros w. reflexivity.
  - repeat constructor. eexists. intros w. reflexivity.
Defined.




(** ** More on the catalog *)

Ltac settle_reads :=
  eexists _, _;
  (split; [intros w; reflexivity |]);
  (split; [intros w; reflexivity |]);
  cbn; split;
  [ intros [=]; congruence
  | first [ by intros -> | by intros ?; simplify_eq ] ].

(** X7.  Every extractor that copies an attribute reads that attribute and
    no other: on two messages it yields the same field exactly when the
    messages agree on the attribute.  So no extractor reads its neighbour's
    attribute, and none conflates two values of its own (a nil status or
    list stays apart from a zero or empty one). *)
Theorem extractors_read_their_attribute :
  reads_exactly wrpzap.LogMessageTypeAsString wrp.Type_ /\
  reads_exactly wrpzap.LogSource wrp.Source /\
  reads_exactly wrpzap.LogDestination wrp.Destination /\
  reads_exactly wrpzap.LogTransactionUUID wrp.TransactionUUID /\
  reads_exactly wrpzap.LogContentType wrp.ContentType /\
  reads_exactly wrpzap.LogAccept wrp.Accept /\
  reads_exactly wrpzap.LogStatus wrp.Status /\
  reads_exactly wrpzap.LogRequestDeliveryResponse wrp.RequestDeliveryResponse /\
  reads_exactly wrpzap.LogHeaders wrp.Headers /\
  reads_exactly wrpzap.LogMetadata wrp.Metadata /\
  reads_exactly wrpzap.LogPath wrp.Path /\
  reads_exactly wrpzap.LogPayload wrp.Payload /\
  reads_exactly wrpzap.LogServiceName wrp.ServiceName /\
  reads_exactly wrpzap.LogURL wrp.URL /\
  reads_exactly wrpzap.LogPartnerIDs wrp.PartnerIDs /\
  reads_exactly wrpzap.LogSessionID wrp.SessionID.
Proof.
  repeat split; intros m1 m2; unfold yields; cbn.
  7: destruct (wrp.Status m1), (wrp.Status m2).
  11: destruct (wrp.RequestDeliveryResponse m1), (wrp.RequestDeliveryResponse m2).
  all: settle_reads.
Qed.



(** X9.  The payload is logged as it is, and its size field agrees with
    it: the payload field carries the bytes of the payload, in order, and
    the integer of the payload-size field is the number of bytes the
    payload field carries. *)
Theorem payload_and_size_agree (msg : wrp.Message) :
  wrp.representable msg = true ->
  exists (f s : zapcore.Field) (blob : list Byte.byte),
    yields wrpzap.LogPayload msg f /\
    yields wrpzap.LogPayloadSize msg s /\
    zapcore.Type_ f = zapcore.BinaryType /\
    zapcore.binary (zapcore.Interface f) = Some blob /\
    blob = Go.elems (wrp.Payload msg) /\
    zapcore.Integer s = Z.of_nat (length blob).
Proof.
  intros (_ & _ & Hlen)%representable_fields.
  eexists _, _, _. split; [intros w; reflexivity |]. split; [intros w; reflexivity |].
  cbn. rewrite (int64_in_range _ (int_is_int64 _ Hlen)). by repeat split.
Qed.

Lemma payload_and_size_agree_witness :
  exists (f s : zapcore.Field) (blob : list Byte.byte),
    yields wrpzap.LogPayload sample f /\
    yields wrpzap.LogPayloadSize sample s /\
    zapcore.Type_ f = zapcore.BinaryType /\
    zapcore.binary (zapcore.Interface f) = Some blob /\
    blob = String.list_byte_of_string "test payload" /\
    zapcore.Integer s = Z.of_nat (length blob).
Proof.
  apply (payload_and_size_agree sample). reflexivity.
Defined.

(** X10.  Lists and the map are logged whole: the headers and partner-ids
    fields marshal exactly the strings of the list, in the order of the
    list and with its repetitions, and the metadata field holds the
    message's map, entry for entry. *)
Theorem containers_logged_whole (msg : wrp.Message) :
  (exists f, yields wrpzap.LogHeaders msg f /\
     zapcore.Type_ f = zapcore.ArrayMarshalerType /\
     zapcore.MarshalLogArray (zapcore.Interface f) = Some (Go.elems (wrp.Headers msg))) /\
  (exists f, yields wrpzap.LogPartnerIDs msg f /\
     zapcore.Type_ f = zapcore.ArrayMarshalerType /\
     zapcore.MarshalLogArray (zapcore.Interface f) = Some (Go.elems (wrp.PartnerIDs msg))) /\
  (exists f held, yields wrpzap.LogMetadata msg f /\
     zapcore.Type_ f = zapcore.ReflectType /\
     zapcore.Interface f = zapcore.mapStringString held /\
     forall key : string, Go.entries held !! key = Go.entries (wrp.Metadata msg) !! key).
Proof.
  split; [| split].
  - eexists. split; [intros w; reflexivity |]. by split.
  - eexists. split; [intros w; reflexivity |]. by split.
  - eexists _, _. split; [intros w; reflexivity |]. by repeat split.
Qed.







(** ** Cases of [TestObserver_ObserveWRP] *)

Example test_log_message_type_as_default :
  wrpzap.ObserveWRP (testObserver (Some quiet) (Some [wrpzap.LogMessageType])) sample []
  = (Go.Done tt,
     [zap.mkRecord quiet zapcore.InfoLevel "test message"
        [zapcore.mkField "msg_type" zapcore.Int64Type 3 "" zapcore.nil]]).
Proof. reflexivity. Qed.

Example test_log_nil_status :
  wrpzap.ObserveWRP (testObserver (Some quiet) (Some [wrpzap.LogStatus])) wrp.zero []
  = (Go.Done tt,
     [zap.mkRecord quiet zapcore.InfoLevel "test message"
        [zapcore.mkField "status" zapcore.ReflectType 0 "" zapcore.nil]]).
Proof. reflexivity. Qed.

Example test_log_num_status :
  wrpzap.ObserveWRP (testObserver (Some quiet) (Some [wrpzap.LogStatus])) sample []
  = (Go.Done tt,
     [zap.mkRecord quiet zapcore.InfoLevel "test message"
        [zapcore.mkField "status" zapcore.Int64Type num "" zapcore.nil]]).
Proof. reflexivity. Qed.

Example test_log_headers :
  wrpzap.ObserveWRP (testObserver (Some quiet) (Some [wrpzap.LogHeaders])) sample []
  = (Go.Done tt,
     [zap.mkRecord quiet zapcore.InfoLevel "test message"
        [zapcore.mkField "headers" zapcore.ArrayMarshalerType 0 "" (zapcore.stringArray headers)]]).
Proof. reflexivity. Qed.

(** An observer with no field at all logs a record with no field. *)
Example test_no_fields :
  wrpzap.ObserveWRP (testObserver (Some quiet) None) sample []
  = (Go.Done tt, [zap.mkRecord quiet zapcore.InfoLevel "test message" []]).
Proof. reflexivity. Qed.

(** The record is emitted before the logger's own end of the call. *)
Example strict_logger_panics_after_the_record :
  wrpzap.ObserveWRP
    (wrpzap.mkObserver (Some strict) zapcore.PanicLevel "test message" (Some [wrpzap.LogPath]))
    sample []
  = (Go.Abort (Go.panic "test message"),
     [zap.mkRecord strict zapcore.PanicLevel "test message"
        [zapcore.mkField "path" zapcore.StringType 0 "test path" zapcore.nil]]).
Proof. reflexivity. Qed.
